(** * langchaingang: the lazy provider registry and the chat model factory

    A shallow embedding of [src/langchaingang/provider.py] and of
    [src/langchaingang/__init__.py], and the properties of the registry
    (registration, lazy derivation of the provider table, memoization,
    failure handling) and of the factory (lookup, keyword renames).

    The module globals of [provider.py] are threaded explicitly through a
    state-and-exception monad: a Python exception leaves the mutations made
    before it in place, so a raising computation still returns the state it
    reached. *)

From stdpp Require Import gmap strings list fin_maps.

Local Open Scope string_scope.

(** ** Python values, exceptions and results *)

(** The values that occur: what a keyword argument can hold, and the
    class objects held by the provider table. A class is represented by
    its qualified name. *)
Inductive pyobj : Type :=
| PyNone
| PyBool (b : bool)
| PyInt (n : Z)
| PyStr (s : string)
| PyClass (qualname : string).

(** [x is None] *)
Definition is_None (x : pyobj) : bool :=
  match x with PyNone => true | _ => false end.

Definition is_class (x : pyobj) : bool :=
  match x with PyClass _ => true | _ => false end.

Definition pyobj_eqb (x y : pyobj) : bool :=
  match x, y with
  | PyNone, PyNone => true
  | PyBool a, PyBool b => Bool.eqb a b
  | PyInt a, PyInt b => Z.eqb a b
  | PyStr a, PyStr b => String.eqb a b
  | PyClass a, PyClass b => String.eqb a b
  | _, _ => false
  end.

(** The exception classes that occur. [ModuleNotFoundError] is the subclass
    of [ImportError] a failed [import] raises. *)
Inductive exn : Type :=
| ImportError (msg : string)
| ModuleNotFoundError (msg : string)
| KeyError (key : string)
| ValueError (msg : string)
| TypeError (msg : string)
| RuntimeError (msg : string).

(** What an [except ImportError] clause catches. *)
Definition isinstance_ImportError (e : exn) : bool :=
  match e with
  | ImportError _ | ModuleNotFoundError _ => true
  | _ => false
  end.

Inductive result (A : Type) : Type :=
| Return (a : A)
| Raise (e : exn).
Arguments Return {A} a.
Arguments Raise {A} e.

(** ** Insertion-ordered dictionaries

    [list(d.keys())] gives the keys in insertion order, and an assignment
    to a key already present keeps the key's position, so the provider
    table is an association list. *)
Module PyDict.
Section Dict.
Context {V : Type}.

Definition t := list (string * V).

(** [bool(d)] *)
Definition truthy (d : t) : bool :=
  match d with [] => false | _ :: _ => true end.

Fixpoint get (k : string) (d : t) : option V :=
  match d with
  | [] => None
  | (k', v) :: d' => if String.eqb k k' then Some v else get k d'
  end.

(** [k in d] *)
Definition contains (k : string) (d : t) : bool :=
  match get k d with Some _ => true | None => false end.

(** [d[k] = v] *)
Fixpoint setitem (k : string) (v : V) (d : t) : t :=
  match d with
  | [] => [(k, v)]
  | (k', v') :: d' =>
      if String.eqb k k' then (k', v) :: d' else (k', v') :: setitem k v d'
  end.

(** [list(d.keys())] *)
Definition keys (d : t) : list string := map fst d.
End Dict.
Arguments t : clear implicits.
End PyDict.

(** ** provider.py *)
Module provider.

Record Info : Type := {
  provider_name : string;
  model_type : pyobj
}.

(** A registered function: no argument, and an [Info] or an exception. *)
Definition info_func : Type := unit -> result Info.

(** The module globals. [invoked] is a ghost trace, absent from the
    source: the registered functions that have been called, in call
    order. *)
Record globals : Type := {
  _provider_info_funcs_list : list info_func;
  _provider_dict : PyDict.t pyobj;
  invoked : list info_func
}.

(** The globals as the module body leaves them. *)
Definition module_body : globals :=
  {| _provider_info_funcs_list := [];
     _provider_dict := [];
     invoked := [] |}.

(** Computations over the globals that may raise. *)
Definition M (A : Type) : Type := globals -> globals * result A.

Definition ret {A} (a : A) : M A := fun g => (g, Return a).

Definition raise {A} (e : exn) : M A := fun g => (g, Raise e).

Definition bind {A B} (m : M A) (k : A -> M B) : M B :=
  fun g =>
    match m g with
    | (g', Return a) => k a g'
    | (g', Raise e) => (g', Raise e)
    end.

(** [try: body except ImportError: handler] *)
Definition try_except_ImportError {A} (body : M A) (handler : M A) : M A :=
  fun g =>
    match body g with
    | (g', Return a) => (g', Return a)
    | (g', Raise e) =>
        if isinstance_ImportError e then handler g' else (g', Raise e)
    end.

Declare Scope py_scope.
Delimit Scope py_scope with py.
Notation "x <- m ;; k" := (bind m (fun x => k))
  (at level 100, m at next level, right associativity) : py_scope.
Notation "m ;; k" := (bind m (fun _ => k))
  (at level 100, right associativity) : py_scope.
Local Open Scope py_scope.

(** Calling a registered function. *)
Definition call (func : info_func) : M Info :=
  fun g =>
    ({| _provider_info_funcs_list := _provider_info_funcs_list g;
        _provider_dict := _provider_dict g;
        invoked := invoked g ++ [func] |},
     func tt).

(** [_provider_dict[k] = v] *)
Definition provider_dict_setitem (k : string) (v : pyobj) : M unit :=
  fun g =>
    ({| _provider_info_funcs_list := _provider_info_funcs_list g;
        _provider_dict := PyDict.setitem k v (_provider_dict g);
        invoked := invoked g |},
     Return tt).

Definition register (func : info_func) : M info_func :=
  fun g =>
    ({| _provider_info_funcs_list := _provider_info_funcs_list g ++ [func];
        _provider_dict := _provider_dict g;
        invoked := invoked g |},
     Return func).

(** The body of the [for] loop of [_get_dict]. *)
Definition _get_dict_body (provider_info_func : info_func) : M unit :=
  try_except_ImportError
    (provider_info <- call provider_info_func ;;
     provider_dict_setitem (provider_name provider_info)
                           (model_type provider_info))
    (ret tt).

Fixpoint _get_dict_loop (funcs : list info_func) : M unit :=
  match funcs with
  | [] => ret tt
  | provider_info_func :: rest =>
      _get_dict_body provider_info_func ;; _get_dict_loop rest
  end.

Definition _get_dict : M (PyDict.t pyobj) :=
  fun g =>
    if PyDict.truthy (_provider_dict g) then (g, Return (_provider_dict g))
    else
      match _get_dict_loop (_provider_info_funcs_list g) g with
      | (g', Return _) => (g', Return (_provider_dict g'))
      | (g', Raise e) => (g', Raise e)
      end.

Definition is_supported (name : string) : M bool :=
  d <- _get_dict ;; ret (PyDict.contains name d).

Definition get_chat_model_class (name : string) : M pyobj :=
  d <- _get_dict ;;
  match PyDict.get name d with
  | Some c => ret c
  | None => raise (KeyError name)
  end.

Definition get_list : M (list string) :=
  d <- _get_dict ;; ret (PyDict.keys d).

End provider.

(** ** __init__.py *)
Module langchaingang.
Import provider.
Local Open Scope py_scope.

(** The object a call of [chat_model_class] builds. The constructors
    belong to the provider SDKs; an instance is represented by its class
    and the keyword arguments it was built from. *)
Record BaseChatModel : Type := {
  instance_class : string;
  init_kwargs : gmap string pyobj
}.

(** Calling [callee] with the keyword arguments [kwargs]. *)
Definition call_class (callee : pyobj) (kwargs : gmap string pyobj)
  : M BaseChatModel :=
  match callee with
  | PyClass c => ret {| instance_class := c; init_kwargs := kwargs |}
  | _ => raise (TypeError "object is not callable")
  end.

Section Registrations.
(** Which of the optional SDK modules can be imported. *)
Variable importable : string -> bool.

(** [from module import name] *)
Definition import_from (module name : string) : result pyobj :=
  if importable module then Return (PyClass (module ++ "." ++ name))
  else Raise (ModuleNotFoundError ("No module named '" ++ module ++ "'")).

Definition info_of (name module class_name : string) : info_func :=
  fun _ =>
    match import_from module class_name with
    | Return c => Return {| provider_name := name; model_type := c |}
    | Raise e => Raise e
    end.

Definition openai : info_func :=
  info_of "openai" "langchain_openai" "ChatOpenAI".
Definition azure_openai : info_func :=
  info_of "azure_openai" "langchain_openai" "AzureChatOpenAI".
Definition bedrock : info_func :=
  info_of "bedrock" "langchain_aws" "ChatBedrock".
Definition vertex : info_func :=
  info_of "vertex" "langchain_google_vertexai" "ChatVertexAI".
Definition gemini : info_func :=
  info_of "gemini" "langchain_google_genai" "ChatGoogleGenerativeAI".
Definition anthropic : info_func :=
  info_of "anthropic" "langchain_anthropic" "ChatAnthropic".
Definition ollama : info_func :=
  info_of "ollama" "langchain_ollama" "ChatOllama".

(** The [@provider.register] decorators, in source order. *)
Definition module_body : M unit :=
  register openai ;;
  register azure_openai ;;
  register bedrock ;;
  register vertex ;;
  register gemini ;;
  register anthropic ;;
  register ollama ;;
  ret tt.

(** The globals of [provider] once the package is imported. *)
Definition imported : globals := fst (module_body provider.module_body).
End Registrations.

Definition get_provider_list : M (list string) := provider.get_list.

Definition get_chat_model (provider_name : string)
    (kwargs : gmap string pyobj) : M BaseChatModel :=
  chat_model_class <- provider.get_chat_model_class provider_name ;;
  if is_None chat_model_class then
    raise (ValueError ("Unsupported provider: " ++ provider_name))
  else
    let kwargs :=
      if String.eqb provider_name "bedrock" then
        match kwargs !! "model" with
        | Some v => <["model_id" := v]> (delete "model" kwargs)
        | None => kwargs
        end
      else kwargs in
    let kwargs :=
      if String.eqb provider_name "vertex" then
        match kwargs !! "model" with
        | Some v => <["model_name" := v]> (delete "model" kwargs)
        | None => kwargs
        end
      else kwargs in
    call_class chat_model_class kwargs.

End langchaingang.

(** ** examples/tldr/tldr.py

    The statements of the script that use the package: the provider list
    taken when the script starts, the check that it is not empty, and the
    call of the factory. Parsing the arguments, loading the environment
    file and reading the document come between them and leave the globals
    of [provider] alone; [args_provider] and [args_model] stand for
    [args.provider] and [args.model]. *)
Module tldr.
Import provider langchaingang.
Local Open Scope py_scope.


End tldr.

Import provider langchaingang.

(** ** What one run of the loop of [_get_dict] does

    Three pure readings of the loop over a list of registered functions:
    the table it leaves, the functions it calls, and the exception that
    ends it early, if any. *)

(** The table left by the loop started on table [d]. *)
Fixpoint derive (funcs : list info_func) (d : PyDict.t pyobj)
  : PyDict.t pyobj :=
  match funcs with
  | [] => d
  | f :: rest =>
      match f tt with
      | Return i => derive rest (PyDict.setitem (provider_name i) (model_type i) d)
      | Raise e => if isinstance_ImportError e then derive rest d else d
      end
  end.

(** The functions the loop calls: all of them up to the first one whose
    exception is not caught, that one included. *)
Fixpoint called (funcs : list info_func) : list info_func :=
  match funcs with
  | [] => []
  | f :: rest =>
      match f tt with
      | Return _ => f :: called rest
      | Raise e => if isinstance_ImportError e then f :: called rest else [f]
      end
  end.

(** The exception that leaves the loop, if one does. *)
Fixpoint uncaught (funcs : list info_func) : option exn :=
  match funcs with
  | [] => None
  | f :: rest =>
      match f tt with
      | Return _ => uncaught rest
      | Raise e => if isinstance_ImportError e then uncaught rest else Some e
      end
  end.

(** ** Conditions on registered functions and on the globals *)

(** The producer contract: the function returns its [Info], or fails with
    an [ImportError]. *)
Definition follows_contract (f : info_func) : bool :=
  match f tt with
  | Return _ => true
  | Raise e => isinstance_ImportError e
  end.

(** [f] returns an [Info] named [k]. *)
Definition yields_name (k : string) (f : info_func) : bool :=
  match f tt with
  | Return i => String.eqb k (provider_name i)
  | Raise _ => false
  end.

(** [f] returns [Info(provider_name=k, model_type=v)]. *)
Definition yields (k : string) (v : pyobj) (f : info_func) : bool :=
  match f tt with
  | Return i => String.eqb k (provider_name i) && pyobj_eqb v (model_type i)
  | Raise _ => false
  end.

(** The annotation [model_type: type[BaseChatModel]] of [Info]: what [f]
    returns holds a class. *)
Definition well_typed (f : info_func) : bool :=
  match f tt with
  | Return i => is_class (model_type i)
  | Raise _ => true
  end.

(** Every entry of the cached table is what some registered function
    returns. *)
Definition table_from_funcs (g : globals) : bool :=
  forallb (fun kv => existsb (yields (fst kv) (snd kv))
                             (_provider_info_funcs_list g))
          (_provider_dict g).

(** The globals reached from the module body by registrations and
    queries. *)
Inductive reachable : globals -> Prop :=
| reachable_module_body : reachable provider.module_body
| reachable_register g f : reachable g -> reachable (fst (register f g))
| reachable_query g : reachable g -> reachable (fst (_get_dict g)).

(** ** The globals after a derivation, and the arguments of the call *)

(** The globals after a run of the loop that called every registered
    function and left the table empty. *)
Definition rerun (g : globals) : globals :=
  {| _provider_info_funcs_list := _provider_info_funcs_list g;
     _provider_dict := [];
     invoked := (invoked g ++ _provider_info_funcs_list g)%list |}.

(** The globals after a derivation that called every registered
    function. *)
Definition derived (g : globals) : globals :=
  {| _provider_info_funcs_list := _provider_info_funcs_list g;
     _provider_dict := derive (_provider_info_funcs_list g) [];
     invoked := (invoked g ++ _provider_info_funcs_list g)%list |}.

(** The keyword arguments the class is called with. *)
Definition renamed (p : string) (kwargs : gmap string pyobj)
  : gmap string pyobj :=
  if String.eqb p "bedrock" then
    match kwargs !! "model" with
    | Some v => <["model_id" := v]> (delete "model" kwargs)
    | None => kwargs
    end
  else if String.eqb p "vertex" then
    match kwargs !! "model" with
    | Some v => <["model_name" := v]> (delete "model" kwargs)
    | None => kwargs
    end
  else kwargs.

(** ** Example registrations *)

(** Registered functions used as examples: one that returns an [Info],
    one whose import fails, one that fails in another way. *)
Definition returning (name class_name : string) : info_func :=
  fun _ => Return {| provider_name := name; model_type := PyClass class_name |}.

Definition failing_import (msg : string) : info_func :=
  fun _ => Raise (ImportError msg).

Definition failing_otherwise (msg : string) : info_func :=
  fun _ => Raise (RuntimeError msg).

(** The globals after registering the functions of [funcs] in order. *)
Definition registered (funcs : list info_func) : globals :=
  fold_left (fun g f => fst (register f g)) funcs provider.module_body.

(** The names the functions of the list return, in list order. *)
Fixpoint names_returned (funcs : list info_func) : list string :=
  match funcs with
  | [] => []
  | f :: rest =>
      match f tt with
      | Return i => provider_name i :: names_returned rest
      | Raise _ => names_returned rest
      end
  end.

(** The provider names of [__init__.py] with the module each one imports
    from, in source order. *)
Definition sdk_modules : list (string * string) :=
  [("openai", "langchain_openai");
   ("azure_openai", "langchain_openai");
   ("bedrock", "langchain_aws");
   ("vertex", "langchain_google_vertexai");
   ("gemini", "langchain_google_genai");
   ("anthropic", "langchain_anthropic");
   ("ollama", "langchain_ollama")].


(** ** Facts about insertion-ordered dictionaries *)
Section DictFacts.
Context {V : Type}.
Implicit Types (d : PyDict.t V) (k : string) (v : V).

Lemma get_setitem_eq k v d : PyDict.get k (PyDict.setitem k v d) = Some v.
Proof.
  induction d as [|[k' v'] d IH]; simpl.
  - by rewrite String.eqb_refl.
  - destruct (String.eqb k k') eqn:E; simpl; rewrite E; [done | exact IH].
Qed.

Lemma get_setitem_ne k k' v d :
  k <> k' -> PyDict.get k (PyDict.setitem k' v d) = PyDict.get k d.
Proof.
  intros Hne%String.eqb_neq. induction d as [|[k0 v0] d IH]; simpl.
  - by rewrite Hne.
  - destruct (String.eqb k' k0) eqn:E; simpl.
    + apply String.eqb_eq in E. subst k0. by rewrite Hne.
    + by rewrite IH.
Qed.

Lemma get_In k v d : PyDict.get k d = Some v -> List.In (k, v) d.
Proof.
  induction d as [|[k' v'] d IH]; simpl; [done |].
  destruct (String.eqb k k') eqn:E.
  - apply String.eqb_eq in E. intros [= ->]. subst. by left.
  - intros H. right. by apply IH.
Qed.

Lemma contains_keys k d : PyDict.contains k d = true <-> List.In k (PyDict.keys d).
Proof.
  unfold PyDict.contains.
  induction d as [|[k' v'] d IH]; simpl; [intuition congruence |].
  destruct (String.eqb k k') eqn:E.
  - apply String.eqb_eq in E. intuition.
  - apply String.eqb_neq in E. rewrite IH. intuition congruence.
Qed.

Lemma keys_setitem k v d :
  PyDict.keys (PyDict.setitem k v d) =
    if PyDict.contains k d then PyDict.keys d else (PyDict.keys d ++ [k])%list.
Proof.
  unfold PyDict.contains.
  induction d as [|[k' v'] d IH]; simpl; [done |].
  destruct (String.eqb k k') eqn:E; simpl; [done |].
  rewrite IH. by destruct (PyDict.get k d).
Qed.

Lemma In_setitem k v k0 v0 d :
  List.In (k0, v0) (PyDict.setitem k v d) -> (k0, v0) = (k, v) \/ List.In (k0, v0) d.
Proof.
  induction d as [|[k' v'] d IH]; simpl.
  - intros [H|[]]. by left.
  - destruct (String.eqb k k') eqn:E; simpl.
    + apply String.eqb_eq in E. subst k'. intros [H|H]; [by left | by right; right].
    + intros [H|H]; [by right; left |]. destruct (IH H); [by left | by right; right].
Qed.

Lemma NoDup_keys_setitem k v d :
  List.NoDup (PyDict.keys d) -> List.NoDup (PyDict.keys (PyDict.setitem k v d)).
Proof.
  intros Hnd. rewrite keys_setitem.
  destruct (PyDict.contains k d) eqn:E; [done |].
  apply NoDup_ListNoDup, NoDup_app. apply NoDup_ListNoDup in Hnd.
  split_and!; [done | | apply NoDup_singleton].
  intros x Hx ->%list_elem_of_singleton.
  apply list_elem_of_In, contains_keys in Hx. congruence.
Qed.

Lemma truthy_false d : PyDict.truthy d = false <-> d = [].
Proof. destruct d; simpl; intuition congruence. Qed.
End DictFacts.

(** ** The boolean conditions, read as propositions *)

Lemma pyobj_eqb_eq x y : pyobj_eqb x y = true <-> x = y.
Proof.
  destruct x, y; simpl; try (split; [discriminate | congruence]);
    try (split; [discriminate | discriminate]); try done.
  - rewrite Bool.eqb_true_iff. split; congruence.
  - rewrite Z.eqb_eq. split; congruence.
  - rewrite String.eqb_eq. split; congruence.
  - rewrite String.eqb_eq. split; congruence.
Qed.

Lemma yields_spec k v f :
  yields k v f = true <-> f tt = Return {| provider_name := k; model_type := v |}.
Proof.
  unfold yields. destruct (f tt) as [[k' v']|e]; simpl.
  - rewrite andb_true_iff, String.eqb_eq, pyobj_eqb_eq. split.
    + by intros [-> ->].
    + by intros [= -> ->].
  - split; discriminate.
Qed.

Lemma yields_name_spec k f :
  yields_name k f = true <->
  exists v, f tt = Return {| provider_name := k; model_type := v |}.
Proof.
  unfold yields_name. destruct (f tt) as [[k' v']|e]; simpl.
  - rewrite String.eqb_eq. split.
    + intros ->. by exists v'.
    + by intros [v [= -> _]].
  - split; [discriminate | by intros [v ?]].
Qed.

Lemma yields_yields_name k v f : yields k v f = true -> yields_name k f = true.
Proof. rewrite yields_spec, yields_name_spec. eauto. Qed.

(** ** The loop of [_get_dict] against its three readings *)

Lemma loop_spec funcs g :
  _get_dict_loop funcs g =
    ({| _provider_info_funcs_list := _provider_info_funcs_list g;
        _provider_dict := derive funcs (_provider_dict g);
        invoked := (invoked g ++ called funcs)%list |},
     match uncaught funcs with
     | None => Return tt
     | Some e => Raise e
     end).
Proof.
  revert g. induction funcs as [|f rest IH]; intros [fs d tr]; simpl.
  - unfold ret. by rewrite app_nil_r.
  - unfold bind, _get_dict_body, try_except_ImportError, bind, call,
      provider_dict_setitem; simpl.
    destruct (f tt) as [i|e]; simpl.
    + rewrite IH; simpl. by rewrite <- app_assoc.
    + destruct (isinstance_ImportError e); simpl; [| done].
      unfold ret. rewrite IH; simpl. by rewrite <- app_assoc.
Qed.

Lemma _get_dict_cached g :
  PyDict.truthy (_provider_dict g) = true ->
  _get_dict g = (g, Return (_provider_dict g)).
Proof. intros H. unfold _get_dict. by rewrite H. Qed.

Lemma _get_dict_derive g :
  _provider_dict g = [] ->
  _get_dict g =
    ({| _provider_info_funcs_list := _provider_info_funcs_list g;
        _provider_dict := derive (_provider_info_funcs_list g) [];
        invoked := (invoked g ++ called (_provider_info_funcs_list g))%list |},
     match uncaught (_provider_info_funcs_list g) with
     | None => Return (derive (_provider_info_funcs_list g) [])
     | Some e => Raise e
     end).
Proof.
  intros H. unfold _get_dict. rewrite H, loop_spec, H; simpl.
  by destruct (uncaught _).
Qed.

Lemma contract_uncaught funcs :
  forallb follows_contract funcs = true -> uncaught funcs = None.
Proof.
  induction funcs as [|f rest IH]; simpl; [done |].
  rewrite andb_true_iff. unfold follows_contract at 1. intros [Hf Hr].
  destruct (f tt); [auto |]. rewrite Hf. auto.
Qed.

Lemma contract_called funcs :
  forallb follows_contract funcs = true -> called funcs = funcs.
Proof.
  induction funcs as [|f rest IH]; simpl; [done |].
  rewrite andb_true_iff. unfold follows_contract at 1. intros [Hf Hr].
  destruct (f tt); [| rewrite Hf]; by rewrite IH.
Qed.

Lemma derive_app l1 l2 d :
  uncaught l1 = None -> derive (l1 ++ l2) d = derive l2 (derive l1 d).
Proof.
  revert d. induction l1 as [|f l1 IH]; intros d; simpl; [done |].
  destruct (f tt); [auto |]. destruct (isinstance_ImportError e); [auto | done].
Qed.

Lemma called_app l1 l2 :
  uncaught l1 = None -> called (l1 ++ l2) = (l1 ++ called l2)%list.
Proof.
  induction l1 as [|f l1 IH]; simpl; [done |].
  destruct (f tt); [intros; f_equal; auto |].
  destruct (isinstance_ImportError e); [intros; f_equal; auto | done].
Qed.

Lemma uncaught_app l1 l2 :
  uncaught l1 = None -> uncaught (l1 ++ l2) = uncaught l2.
Proof.
  induction l1 as [|f l1 IH]; simpl; [done |].
  destruct (f tt); [auto |]. destruct (isinstance_ImportError e); [auto | done].
Qed.

(** A name that no function of the list returns keeps its entry. *)
Lemma derive_get_unyielded k funcs d :
  existsb (yields_name k) funcs = false ->
  PyDict.get k (derive funcs d) = PyDict.get k d.
Proof.
  revert d. induction funcs as [|f rest IH]; intros d; simpl; [done |].
  rewrite orb_false_iff. unfold yields_name at 1. intros [Hf Hr].
  destruct (f tt) as [i|e].
  - rewrite IH by done. apply get_setitem_ne.
    by apply String.eqb_neq.
  - destruct (isinstance_ImportError e); auto.
Qed.

Lemma derive_NoDup funcs d :
  List.NoDup (PyDict.keys d) -> List.NoDup (PyDict.keys (derive funcs d)).
Proof.
  revert d. induction funcs as [|f rest IH]; intros d Hd; simpl; [done |].
  destruct (f tt) as [i|e].
  - by apply IH, NoDup_keys_setitem.
  - destruct (isinstance_ImportError e); auto.
Qed.

(** When every function follows the contract, the keys of the derived
    table are the keys it started with and the names returned. *)
Lemma derive_keys k funcs d :
  forallb follows_contract funcs = true ->
  List.In k (PyDict.keys (derive funcs d)) <->
  List.In k (PyDict.keys d) \/ existsb (yields_name k) funcs = true.
Proof.
  revert d. induction funcs as [|f rest IH]; intros d; simpl.
  - intros _. intuition congruence.
  - rewrite andb_true_iff, orb_true_iff.
    unfold follows_contract at 1, yields_name at 1. intros [Hf Hr].
    destruct (f tt) as [[k' v']|e]; simpl in *.
    + rewrite IH by done. rewrite keys_setitem.
      destruct (PyDict.contains k' d) eqn:E.
      * apply contains_keys in E. rewrite String.eqb_eq.
        intuition (subst; auto).
      * rewrite in_app_iff; simpl. rewrite String.eqb_eq.
        intuition (subst; auto).
    + rewrite Hf. rewrite IH by done. intuition congruence.
Qed.

(** The entries of a derived table are entries it started with or what
    a function of the list returns. *)
Lemma derive_In k v funcs d :
  List.In (k, v) (derive funcs d) ->
  List.In (k, v) d \/ existsb (yields k v) funcs = true.
Proof.
  revert d. induction funcs as [|f rest IH]; intros d; simpl; [by left |].
  rewrite orb_true_iff. unfold yields at 1.
  destruct (f tt) as [[k' v']|e]; simpl.
  - intros [H|H]%IH; [| by right; right].
    apply In_setitem in H as [[= -> ->]|H]; [| by left].
    right; left. rewrite String.eqb_refl. simpl. by apply pyobj_eqb_eq.
  - destruct (isinstance_ImportError e).
    + intros [H|H]%IH; [by left | by right; right].
    + by left.
Qed.

Lemma uncaught_None_called funcs : uncaught funcs = None -> called funcs = funcs.
Proof.
  induction funcs as [|f rest IH]; simpl; [done |].
  destruct (f tt); [intros; f_equal; auto |].
  destruct (isinstance_ImportError e); [intros; f_equal; auto | done].
Qed.

(** ** The three queries in terms of [_get_dict] *)

Lemma query_return g g' d name :
  _get_dict g = (g', Return d) ->
  get_list g = (g', Return (PyDict.keys d)) /\
  is_supported name g = (g', Return (PyDict.contains name d)) /\
  get_chat_model_class name g =
    (g', match PyDict.get name d with
         | Some c => Return c
         | None => Raise (KeyError name)
         end).
Proof.
  intros H. unfold get_list, is_supported, get_chat_model_class, bind.
  rewrite H. split_and!; try done. by destruct (PyDict.get name d).
Qed.

Lemma query_raise g g' e name :
  _get_dict g = (g', Raise e) ->
  get_list g = (g', Raise e) /\
  is_supported name g = (g', Raise e) /\
  get_chat_model_class name g = (g', Raise e).
Proof.
  intros H. unfold get_list, is_supported, get_chat_model_class, bind.
  by rewrite H.
Qed.

(** ** The cached table holds only what registered functions return *)

Lemma table_from_funcs_spec g :
  table_from_funcs g = true <->
  forall k v, List.In (k, v) (_provider_dict g) ->
              existsb (yields k v) (_provider_info_funcs_list g) = true.
Proof.
  unfold table_from_funcs. rewrite forallb_forall. split.
  - intros H k v Hin. exact (H (k, v) Hin).
  - intros H [k v] Hin. by apply H.
Qed.

Lemma reachable_table_from_funcs g : reachable g -> table_from_funcs g = true.
Proof.
  induction 1 as [|g f _ IH|g _ IH]; [done | |].
  - apply table_from_funcs_spec. intros k v Hin; simpl in *.
    rewrite existsb_app. apply orb_true_iff. left.
    by apply (proj1 (table_from_funcs_spec g) IH).
  - destruct (PyDict.truthy (_provider_dict g)) eqn:E.
    + by rewrite _get_dict_cached.
    + apply truthy_false in E. rewrite _get_dict_derive by done; simpl.
      apply table_from_funcs_spec. simpl. intros k v Hin.
      by apply derive_In in Hin as [[]|Hin].
Qed.

(** ** Registration *)

(** C8. [register(func)] appends [func] to the end of the list of
    registered functions and returns [func] itself; it calls no registered
    function, [func] included, and leaves the cached table as it was. *)
Theorem register_appends_and_returns (func : info_func) (g : globals) :
  snd (register func g) = Return func /\
  _provider_info_funcs_list (fst (register func g)) =
    (_provider_info_funcs_list g ++ [func])%list /\
  List.last (_provider_info_funcs_list (fst (register func g))) func = func /\
  invoked (fst (register func g)) = invoked g /\
  _provider_dict (fst (register func g)) = _provider_dict g.
Proof.
  destruct g as [fs d tr]; simpl. split_and!; try done.
  induction fs as [|f fs IH]; simpl; [done |].
  destruct (fs ++ [func])%list eqn:E; [by destruct fs | exact IH].
Qed.

(** ** Memoization *)

Lemma _get_dict_empty g g' :
  _get_dict g = (g', Return []) ->
  g' = rerun g /\
  uncaught (_provider_info_funcs_list g) = None /\
  derive (_provider_info_funcs_list g) [] = [].
Proof.
  intros H. destruct (PyDict.truthy (_provider_dict g)) eqn:E.
  - rewrite _get_dict_cached in H by done. injection H as <- Hd.
    by rewrite Hd in E.
  - apply truthy_false in E. rewrite _get_dict_derive in H by done.
    destruct (uncaught _) eqn:Hu; [by injection H |].
    injection H as <- Hd. rewrite Hd. unfold rerun.
    by rewrite (uncaught_None_called _ Hu).
Qed.

(** C5. While the cached table is not empty, each query answers from it
    and leaves the globals as they are, the trace of calls included: no
    registered function is called. A derivation that ends with an empty
    table leaves the globals as before it apart from the trace, so the
    next query calls every registered function again, ends the same way,
    and so does every query after it. *)
Theorem memoized_on_nonempty_table (g : globals) (name : string) :
  (PyDict.truthy (_provider_dict g) = true ->
     get_list g = (g, Return (PyDict.keys (_provider_dict g))) /\
     is_supported name g =
       (g, Return (PyDict.contains name (_provider_dict g))) /\
     get_chat_model_class name g =
       (g, match PyDict.get name (_provider_dict g) with
           | Some c => Return c
           | None => Raise (KeyError name)
           end)) /\
  (forall g', _get_dict g = (g', Return []) ->
     g' = rerun g /\
     _get_dict g' = (rerun g', Return []) /\
     get_list g' = (rerun g', Return []) /\
     is_supported name g' = (rerun g', Return false) /\
     get_chat_model_class name g' = (rerun g', Raise (KeyError name))).
Proof.
  split.
  - intros H. by apply query_return, _get_dict_cached.
  - intros g' H. apply _get_dict_empty in H as (-> & Hu & Hd).
    split; [done |].
    assert (Hq : _get_dict (rerun g) = (rerun (rerun g), Return [])).
    { rewrite _get_dict_derive by done; simpl. rewrite Hu, Hd.
      by rewrite (uncaught_None_called _ Hu). }
    split; [done |]. exact (query_return _ _ _ name Hq).
Qed.

(** A table holding one entry is served as it is; a registry whose only
    function fails on import derives an empty table at every query, and
    calls the function each time. *)
Lemma memoized_on_nonempty_table_witness :
  let g := fst (get_list (registered [returning "a" "A"])) in
  let h := registered [failing_import "No module named 'sdk'"] in
  get_list g = (g, Return ["a"]) /\
  _get_dict (fst (_get_dict h)) = (rerun (rerun h), Return []) /\
  invoked (rerun (rerun h)) =
    [failing_import "No module named 'sdk'";
     failing_import "No module named 'sdk'"].
Proof.
  intros g h. split_and!.
  - exact (proj1 (proj1 (memoized_on_nonempty_table g "a") eq_refl)).
  - destruct (proj2 (memoized_on_nonempty_table h "a")
                (fst (_get_dict h)) eq_refl) as (Hg' & Hq & _).
    rewrite Hq. by rewrite Hg'.
  - reflexivity.
Defined.

(** ** Failures of registered functions *)

(** C2, as stated, fails: with a function that returns registered before
    one that raises [RuntimeError], the first query raises, and the table
    it leaves holds the entry of the first function; the next query
    returns that table and calls nothing. *)
Lemma partial_table_is_kept :
  let g0 := registered [returning "a" "A"; failing_otherwise "boom"] in
  let g1 := fst (_get_dict g0) in
  _provider_dict g0 = [] /\
  snd (_get_dict g0) = Raise (RuntimeError "boom") /\
  _provider_dict g1 = [("a", PyClass "A")] /\
  _provider_dict g1 <> [] /\
  _get_dict g1 = (g1, Return [("a", PyClass "A")]) /\
  snd (get_list g1) = Return ["a"].
Proof. cbv zeta. split_and!; try (vm_compute; reflexivity). vm_compute. discriminate. Qed.

(** C2, amended. Let the table be empty and let the registered functions
    be [l1], then [f], then [l2], where the functions of [l1] follow the
    contract and [f] raises [e], not an [ImportError]. Then every query
    raises [e]; the functions of [l1] and [f] have been called and none of
    [l2]; the table is left holding what the loop over [l1] inserted. If
    that is nothing, the next query runs the loop again and raises [e]
    again; otherwise the next query returns the table left behind and
    calls nothing. *)
Theorem uncaught_failure_aborts_derivation
    (g : globals) (l1 l2 : list info_func) (f : info_func) (e : exn)
    (name : string) :
  _provider_dict g = [] ->
  _provider_info_funcs_list g = (l1 ++ f :: l2)%list ->
  forallb follows_contract l1 = true ->
  f tt = Raise e ->
  isinstance_ImportError e = false ->
  let g' := fst (_get_dict g) in
  (snd (_get_dict g) = Raise e /\
   get_list g = (g', Raise e) /\
   is_supported name g = (g', Raise e) /\
   get_chat_model_class name g = (g', Raise e)) /\
  _provider_info_funcs_list g' = _provider_info_funcs_list g /\
  invoked g' = (invoked g ++ l1 ++ [f])%list /\
  _provider_dict g' = derive l1 [] /\
  (forall k, List.In k (PyDict.keys (_provider_dict g')) <->
             existsb (yields_name k) l1 = true) /\
  (derive l1 [] = [] ->
     snd (_get_dict g') = Raise e /\
     invoked (fst (_get_dict g')) = (invoked g' ++ l1 ++ [f])%list) /\
  (derive l1 [] <> [] ->
     _get_dict g' = (g', Return (derive l1 []))).
Proof.
  intros Hd Hfs Hl1 Hf He g'.
  pose proof (contract_uncaught _ Hl1) as Hu1.
  assert (Hu : uncaught (l1 ++ f :: l2) = Some e).
  { rewrite uncaught_app by done. simpl. by rewrite Hf, He. }
  assert (Hc : called (l1 ++ f :: l2) = (l1 ++ [f])%list).
  { rewrite called_app by done. simpl. by rewrite Hf, He. }
  assert (Hdv : forall d, derive (l1 ++ f :: l2) d = derive l1 d).
  { intros d. rewrite derive_app by done. simpl. by rewrite Hf, He. }
  assert (Hg : _get_dict g = (g', Raise e)).
  { subst g'. rewrite _get_dict_derive by done. by rewrite Hfs, Hu. }
  assert (Hg' : g' = {| _provider_info_funcs_list := (l1 ++ f :: l2)%list;
                        _provider_dict := derive l1 [];
                        invoked := (invoked g ++ l1 ++ [f])%list |}).
  { subst g'. rewrite _get_dict_derive by done; simpl.
    by rewrite Hfs, Hdv, Hc. }
  clearbody g'. subst g'. simpl.
  split; [| split_and!].
  - rewrite Hg. split; [done |]. by apply query_raise.
  - done.
  - done.
  - done.
  - intros k. rewrite derive_keys by done. simpl. tauto.
  - intros Hempty. rewrite _get_dict_derive by done; simpl.
    by rewrite Hu, Hc.
  - intros Hne. apply (_get_dict_cached {| _provider_dict := derive l1 [] |}).
    simpl. by destruct (derive l1 []).
Qed.

(** The theorem at the functions of the counterexample: the entry of the
    first function is kept, and the next query returns it. *)
Lemma uncaught_failure_aborts_derivation_witness :
  let g := registered [returning "a" "A"; failing_otherwise "boom"] in
  let g' := fst (_get_dict g) in
  snd (_get_dict g) = Raise (RuntimeError "boom") /\
  invoked g' = [returning "a" "A"; failing_otherwise "boom"] /\
  _provider_dict g' = [("a", PyClass "A")] /\
  _get_dict g' = (g', Return [("a", PyClass "A")]).
Proof.
  intros g g'.
  destruct (uncaught_failure_aborts_derivation g
              [returning "a" "A"] [] (failing_otherwise "boom")
              (RuntimeError "boom") "a"
              eq_refl eq_refl eq_refl eq_refl eq_refl)
    as ((Hr & _) & _ & Hi & Ht & _ & _ & Hnext).
  split_and!; [exact Hr | exact Hi | exact Ht |].
  apply Hnext. discriminate.
Defined.

(** ** The derived table *)

Lemma existsb_yields_name k funcs :
  existsb (yields_name k) funcs = true <->
  exists f v, List.In f funcs /\
              f tt = Return {| provider_name := k; model_type := v |}.
Proof.
  rewrite existsb_exists. split.
  - intros (f & Hin & (v & Hv)%yields_name_spec). eauto.
  - intros (f & v & Hin & Hv). exists f. split; [done |].
    apply yields_name_spec. eauto.
Qed.

Lemma existsb_yields_yields_name k v funcs :
  existsb (yields k v) funcs = true -> existsb (yields_name k) funcs = true.
Proof.
  rewrite !existsb_exists. intros (f & Hin & Hy).
  exists f. split; [done |]. by apply yields_yields_name with v.
Qed.

Lemma _get_dict_contract g :
  _provider_dict g = [] ->
  forallb follows_contract (_provider_info_funcs_list g) = true ->
  _get_dict g = (derived g, Return (_provider_dict (derived g))).
Proof.
  intros Hd Hc. rewrite _get_dict_derive by done.
  by rewrite contract_uncaught, contract_called.
Qed.

(** The last function of the list that returns the name [k] decides the
    entry of [k]. *)
Lemma derive_get_last k v f l l3 d :
  uncaught l = None ->
  f tt = Return {| provider_name := k; model_type := v |} ->
  existsb (yields_name k) l3 = false ->
  PyDict.get k (derive (l ++ f :: l3) d) = Some v.
Proof.
  intros Hu Hf Hl3. rewrite derive_app by done. simpl. rewrite Hf; simpl.
  rewrite derive_get_unyielded by done. apply get_setitem_eq.
Qed.

(** C4. Let the table be empty and let every registered function either
    return an [Info] or fail with an [ImportError]. Then [get_list]
    returns normally, having called every registered function, the failing
    ones included; the names it returns are pairwise distinct, and a name
    is among them exactly when some registered function returns an [Info]
    with that name. A function whose import fails contributes no name. *)
Theorem import_errors_are_skipped (g : globals) :
  _provider_dict g = [] ->
  forallb follows_contract (_provider_info_funcs_list g) = true ->
  exists g' names,
    get_list g = (g', Return names) /\
    invoked g' = (invoked g ++ _provider_info_funcs_list g)%list /\
    List.NoDup names /\
    forall k, List.In k names <->
              exists f v, List.In f (_provider_info_funcs_list g) /\
                          f tt = Return {| provider_name := k; model_type := v |}.
Proof.
  intros Hd Hc. exists (derived g), (PyDict.keys (_provider_dict (derived g))).
  split_and!.
  - by apply (query_return _ _ _ ""), _get_dict_contract.
  - done.
  - simpl. apply derive_NoDup. constructor.
  - intros k. simpl. rewrite derive_keys by done. simpl.
    rewrite existsb_yields_name. tauto.
Qed.

(** A function whose import fails, registered before one that returns
    the name ["y"]: [get_list] returns exactly the list of ["y"]. *)
Lemma import_errors_are_skipped_witness :
  exists g',
    get_list (registered [failing_import "Mock import failure";
                          returning "y" "Mock"]) = (g', Return ["y"]).
Proof.
  destruct (import_errors_are_skipped
              (registered [failing_import "Mock import failure";
                           returning "y" "Mock"]) eq_refl eq_refl)
    as (g' & names & Hq & _).
  exists g'. rewrite Hq. f_equal.
  vm_compute in Hq. congruence.
Defined.

(** C6. Let the table be empty, let every registered function follow the
    contract, and let [f1], registered before [f2], both return the name
    [k], no function registered after [f2] returning [k]. Then the derived
    table maps [k] to the class returned by [f2]. *)
Theorem last_registration_wins
    (g : globals) (l1 l2 l3 : list info_func) (f1 f2 : info_func)
    (k : string) (v1 v2 : pyobj) :
  _provider_dict g = [] ->
  _provider_info_funcs_list g = (l1 ++ f1 :: l2 ++ f2 :: l3)%list ->
  forallb follows_contract (_provider_info_funcs_list g) = true ->
  f1 tt = Return {| provider_name := k; model_type := v1 |} ->
  f2 tt = Return {| provider_name := k; model_type := v2 |} ->
  existsb (yields_name k) l3 = false ->
  exists g',
    _get_dict g = (g', Return (_provider_dict g')) /\
    PyDict.get k (_provider_dict g') = Some v2 /\
    get_chat_model_class k g = (g', Return v2).
Proof.
  intros Hd Hfs Hc Hf1 Hf2 Hl3.
  pose proof (_get_dict_contract g Hd Hc) as Hq.
  assert (Hget : PyDict.get k (_provider_dict (derived g)) = Some v2).
  { simpl. rewrite Hfs.
    replace (l1 ++ f1 :: l2 ++ f2 :: l3)%list
      with ((l1 ++ f1 :: l2) ++ f2 :: l3)%list
      by (by rewrite <- app_assoc).
    apply derive_get_last; [| done | done].
    apply contract_uncaught. rewrite Hfs in Hc.
    replace (l1 ++ f1 :: l2 ++ f2 :: l3)%list
      with ((l1 ++ f1 :: l2) ++ f2 :: l3)%list in Hc
      by (by rewrite <- app_assoc).
    rewrite forallb_app in Hc. by apply andb_true_iff in Hc as [? _]. }
  exists (derived g). split_and!; [done | done |].
  destruct (query_return _ _ _ k Hq) as (_ & _ & ->). by rewrite Hget.
Qed.

(** Two functions returning the name ["dup"]: the entry is the class of
    the one registered later. *)
Lemma last_registration_wins_witness :
  exists g',
    get_chat_model_class "dup"
      (registered [returning "dup" "First"; returning "dup" "Second"]) =
    (g', Return (PyClass "Second")).
Proof.
  destruct (last_registration_wins
              (registered [returning "dup" "First"; returning "dup" "Second"])
              [] [] [] (returning "dup" "First") (returning "dup" "Second")
              "dup" (PyClass "First") (PyClass "Second")
              eq_refl eq_refl eq_refl eq_refl eq_refl eq_refl)
    as (g' & _ & _ & Hq).
  exists g'. exact Hq.
Defined.

(** A name that no registered function returns is not a key of the table
    a query sees. *)
Lemma _get_dict_unyielded (g : globals) (p : string) :
  table_from_funcs g = true ->
  forallb follows_contract (_provider_info_funcs_list g) = true ->
  existsb (yields_name p) (_provider_info_funcs_list g) = false ->
  exists g' d, _get_dict g = (g', Return d) /\ PyDict.get p d = None.
Proof.
  intros Ht Hc Hp.
  destruct (PyDict.truthy (_provider_dict g)) eqn:E.
  - exists g, (_provider_dict g). split; [by apply _get_dict_cached |].
    destruct (PyDict.get p (_provider_dict g)) as [v|] eqn:Hg; [| done].
    apply get_In, (proj1 (table_from_funcs_spec g) Ht) in Hg.
    apply existsb_yields_yields_name in Hg. congruence.
  - apply truthy_false in E.
    exists (derived g), (_provider_dict (derived g)).
    split; [by apply _get_dict_contract |].
    simpl. by rewrite derive_get_unyielded.
Qed.

(** C7. Let every entry of the cached table be what some registered
    function returns, let every registered function follow the contract,
    and let no registered function return the name [p]. Then
    [is_supported(p)] returns [False] and [get_chat_model_class(p)] raises
    [KeyError(p)]. *)
Theorem unregistered_name_is_not_supported (g : globals) (p : string) :
  table_from_funcs g = true ->
  forallb follows_contract (_provider_info_funcs_list g) = true ->
  existsb (yields_name p) (_provider_info_funcs_list g) = false ->
  exists g',
    is_supported p g = (g', Return false) /\
    get_chat_model_class p g = (g', Raise (KeyError p)).
Proof.
  intros Ht Hc Hp.
  destruct (_get_dict_unyielded g p Ht Hc Hp) as (g' & d & Hq & Hnone).
  exists g'.
  destruct (query_return _ _ _ p Hq) as (_ & -> & ->).
  unfold PyDict.contains. by rewrite Hnone.
Qed.

(** After importing the package with every SDK present, and after a first
    query has cached the table, the name ["nonexistent"] is not
    supported. *)
Lemma unregistered_name_is_not_supported_witness :
  exists g',
    is_supported "nonexistent"
      (fst (get_list (imported (fun _ => true)))) = (g', Return false) /\
    get_chat_model_class "nonexistent"
      (fst (get_list (imported (fun _ => true)))) =
    (g', Raise (KeyError "nonexistent")).
Proof.
  exact (unregistered_name_is_not_supported
           (fst (get_list (imported (fun _ => true)))) "nonexistent"
           eq_refl eq_refl eq_refl).
Defined.

(** ** The factory *)

(** [get_chat_model] by the outcome of the lookup. *)
Lemma get_chat_model_raise p kwargs g g' e :
  get_chat_model_class p g = (g', Raise e) ->
  get_chat_model p kwargs g = (g', Raise e).
Proof. intros H. unfold get_chat_model, bind. by rewrite H. Qed.

Lemma get_chat_model_None p kwargs g g' :
  get_chat_model_class p g = (g', Return PyNone) ->
  get_chat_model p kwargs g =
    (g', Raise (ValueError ("Unsupported provider: " ++ p))).
Proof. intros H. unfold get_chat_model, bind. by rewrite H. Qed.

Lemma get_chat_model_class_found p kwargs g g' c :
  get_chat_model_class p g = (g', Return (PyClass c)) ->
  get_chat_model p kwargs g =
    (g', Return {| instance_class := c; init_kwargs := renamed p kwargs |}).
Proof.
  intros H. unfold get_chat_model, bind. rewrite H. simpl.
  unfold call_class, ret, renamed. do 2 f_equal. f_equal.
  destruct (String.eqb p "bedrock") eqn:Eb; [| done].
  apply String.eqb_eq in Eb. subst p. simpl. done.
Qed.

(** What the lookup returns is a class some registered function
    returns. *)
Lemma get_chat_model_class_returns p g g' v :
  table_from_funcs g = true ->
  get_chat_model_class p g = (g', Return v) ->
  existsb (yields p v) (_provider_info_funcs_list g) = true.
Proof.
  intros Ht H.
  assert (Ht' : table_from_funcs (fst (_get_dict g)) = true).
  { destruct (PyDict.truthy (_provider_dict g)) eqn:E.
    - by rewrite _get_dict_cached.
    - apply truthy_false in E. rewrite _get_dict_derive by done.
      apply table_from_funcs_spec. simpl. intros k w Hin.
      by apply derive_In in Hin as [[]|Hin]. }
  assert (Hfs : _provider_info_funcs_list (fst (_get_dict g)) =
                _provider_info_funcs_list g).
  { destruct (PyDict.truthy (_provider_dict g)) eqn:E.
    - by rewrite _get_dict_cached.
    - apply truthy_false in E. by rewrite _get_dict_derive. }
  unfold get_chat_model_class, bind in H.
  destruct (_get_dict g) as [g1 [d|e]] eqn:Hq; [| done].
  assert (Hd : d = _provider_dict g1).
  { destruct (PyDict.truthy (_provider_dict g)) eqn:E.
    - rewrite _get_dict_cached in Hq by done. congruence.
    - apply truthy_false in E. rewrite _get_dict_derive in Hq by done.
      destruct (uncaught _); [done |]. by injection Hq as <- <-. }
  subst d. simpl in *.
  destruct (PyDict.get p (_provider_dict g1)) as [c|] eqn:Hg; [| done].
  injection H as _ ->. rewrite <- Hfs.
  by apply (proj1 (table_from_funcs_spec g1) Ht'), get_In.
Qed.

Lemma well_typed_yields k v funcs :
  forallb well_typed funcs = true ->
  existsb (yields k v) funcs = true ->
  exists c, v = PyClass c.
Proof.
  rewrite forallb_forall, existsb_exists.
  intros Hwt (f & Hin & Hy%yields_spec).
  specialize (Hwt f Hin). unfold well_typed in Hwt. rewrite Hy in Hwt.
  simpl in Hwt. destruct v; try done. eauto.
Qed.

(** C9. Let every entry of the cached table be what some registered
    function returns, and let every registered function return an [Info]
    that holds a class, as [Info] declares. Then, for every name [p]:
    [get_chat_model_class(p)] never returns [None], and what it returns is
    a class some registered function returns for [p]; every exception that
    leaves [get_chat_model(p)] has left [get_chat_model_class(p)], so the
    branch raising [ValueError] is not taken; and when the registered
    functions follow the contract, [get_chat_model_class(p)] either returns
    a registered class or raises [KeyError(p)]. *)
Theorem unsupported_branch_is_unreachable (g : globals) (p : string) :
  table_from_funcs g = true ->
  forallb well_typed (_provider_info_funcs_list g) = true ->
  (forall g', get_chat_model_class p g <> (g', Return PyNone)) /\
  (forall g' v, get_chat_model_class p g = (g', Return v) ->
     is_None v = false /\
     exists c, v = PyClass c /\
               existsb (yields p (PyClass c)) (_provider_info_funcs_list g) = true) /\
  (forall kwargs g' e, get_chat_model p kwargs g = (g', Raise e) ->
     get_chat_model_class p g = (g', Raise e)) /\
  (forallb follows_contract (_provider_info_funcs_list g) = true ->
   exists g',
     (exists c, get_chat_model_class p g = (g', Return (PyClass c)) /\
                existsb (yields p (PyClass c)) (_provider_info_funcs_list g) = true) \/
     get_chat_model_class p g = (g', Raise (KeyError p))).
Proof.
  intros Ht Hwt.
  assert (Hret : forall g' v, get_chat_model_class p g = (g', Return v) ->
     is_None v = false /\
     exists c, v = PyClass c /\
               existsb (yields p (PyClass c)) (_provider_info_funcs_list g) = true).
  { intros g' v H.
    pose proof (get_chat_model_class_returns _ _ _ _ Ht H) as Hy.
    destruct (well_typed_yields _ _ _ Hwt Hy) as [c ->]. eauto. }
  split_and!.
  - intros g' H. by destruct (Hret _ _ H) as [? _].
  - exact Hret.
  - intros kwargs g' e H.
    destruct (get_chat_model_class p g) as [g1 [v|e1]] eqn:Hq.
    + destruct (Hret _ _ eq_refl) as (_ & c & -> & _).
      by rewrite (get_chat_model_class_found _ kwargs _ _ _ Hq) in H.
    + rewrite (get_chat_model_raise _ kwargs _ _ _ Hq) in H.
      by injection H as -> ->.
  - intros Hc.
    destruct (get_chat_model_class p g) as [g1 [v|e1]] eqn:Hq.
    + exists g1. left. destruct (Hret _ _ eq_refl) as (_ & c & -> & Hy). eauto.
    + exists g1. right. f_equal. f_equal.
      unfold get_chat_model_class, bind in Hq.
      destruct (PyDict.truthy (_provider_dict g)) eqn:E.
      * rewrite _get_dict_cached in Hq by done.
        destruct (PyDict.get p _); by injection Hq.
      * apply truthy_false in E. rewrite _get_dict_contract in Hq by done.
        destruct (PyDict.get p _); by injection Hq.
Qed.

(** With every SDK present: the lookup of ["openai"] returns its class,
    and the lookup of ["nonexistent"] raises [KeyError]. *)
Lemma unsupported_branch_is_unreachable_witness :
  (exists g' c,
     get_chat_model_class "openai" (imported (fun _ => true)) =
     (g', Return (PyClass c))) /\
  (forall g', get_chat_model_class "nonexistent" (imported (fun _ => true))
              <> (g', Return PyNone)).
Proof.
  split.
  - destruct (unsupported_branch_is_unreachable
                (imported (fun _ => true)) "openai" eq_refl eq_refl)
      as (_ & _ & _ & Hc).
    destruct (Hc eq_refl) as (g' & [(c & Hq & _)|Hq]).
    + by exists g', c.
    + vm_compute in Hq. discriminate Hq.
  - exact (proj1 (unsupported_branch_is_unreachable
                    (imported (fun _ => true)) "nonexistent"
                    eq_refl eq_refl)).
Defined.

(** C3. Let [get_chat_model_class(p)] return the class [c]. Then
    [get_chat_model(p, kwargs)] returns an instance of [c] built from
    keyword arguments [args] such that: for ["bedrock"] with target
    ["model_id"], and for ["vertex"] with target ["model_name"], when
    [kwargs] holds ["model"] with value [v], [args] is [kwargs] without
    ["model"] and with the target set to [v], so ["model"] is absent and
    every key other than ["model"] and the target keeps its value; for
    these two providers without a ["model"] key, and for every other
    provider, [args] is [kwargs]. *)
Theorem renames_for_bedrock_and_vertex_only
    (p : string) (kwargs : gmap string pyobj) (g g' : globals) (c : string) :
  get_chat_model_class p g = (g', Return (PyClass c)) ->
  exists args,
    get_chat_model p kwargs g =
      (g', Return {| instance_class := c; init_kwargs := args |}) /\
    (forall target v,
       (p = "bedrock" /\ target = "model_id") \/
       (p = "vertex" /\ target = "model_name") ->
       kwargs !! "model" = Some v ->
       args = <[target := v]> (delete "model" kwargs) /\
       args !! "model" = None /\
       args !! target = Some v /\
       forall k, k <> "model" -> k <> target -> args !! k = kwargs !! k) /\
    (p = "bedrock" \/ p = "vertex" -> kwargs !! "model" = None ->
     args = kwargs) /\
    (p <> "bedrock" -> p <> "vertex" -> args = kwargs).
Proof.
  intros Hq. exists (renamed p kwargs).
  split; [by apply get_chat_model_class_found |]. split_and!.
  - intros target v [[-> ->]|[-> ->]] Hm; unfold renamed; simpl; rewrite Hm.
    + split_and!; [done | | by rewrite lookup_insert_eq |].
      * rewrite lookup_insert_ne by done. apply lookup_delete_eq.
      * intros k Hk Ht. rewrite lookup_insert_ne by done.
        by rewrite lookup_delete_ne.
    + split_and!; [done | | by rewrite lookup_insert_eq |].
      * rewrite lookup_insert_ne by done. apply lookup_delete_eq.
      * intros k Hk Ht. rewrite lookup_insert_ne by done.
        by rewrite lookup_delete_ne.
  - intros [-> | ->] Hm; unfold renamed; simpl; by rewrite Hm.
  - intros Hb%String.eqb_neq Hv%String.eqb_neq. unfold renamed.
    by rewrite Hb, Hv.
Qed.

(** The three configurations of the tests, with every SDK present. *)
Lemma renames_for_bedrock_and_vertex_only_witness :
  let g := imported (fun _ => true) in
  let kwargs : gmap string pyobj :=
    <["model" := PyStr "m"]> (<["other" := PyStr "v"]> ∅) in
  (exists g',
     get_chat_model "bedrock" kwargs g =
     (g', Return {| instance_class := "langchain_aws.ChatBedrock";
                    init_kwargs := <["model_id" := PyStr "m"]>
                                     (<["other" := PyStr "v"]> ∅) |})) /\
  (exists g',
     get_chat_model "vertex" kwargs g =
     (g', Return {| instance_class := "langchain_google_vertexai.ChatVertexAI";
                    init_kwargs := <["model_name" := PyStr "m"]>
                                     (<["other" := PyStr "v"]> ∅) |})) /\
  (exists g',
     get_chat_model "openai" kwargs g =
     (g', Return {| instance_class := "langchain_openai.ChatOpenAI";
                    init_kwargs := kwargs |})).
Proof.
  intros g kwargs. split_and!.
  - destruct (renames_for_bedrock_and_vertex_only "bedrock" kwargs g
                (derived g) "langchain_aws.ChatBedrock" eq_refl)
      as (args & Hq & Hren & _).
    destruct (Hren "model_id" (PyStr "m")
                (or_introl (conj eq_refl eq_refl)) eq_refl) as (-> & _).
    exists (derived g). rewrite Hq. vm_compute. reflexivity.
  - destruct (renames_for_bedrock_and_vertex_only "vertex" kwargs g
                (derived g) "langchain_google_vertexai.ChatVertexAI" eq_refl)
      as (args & Hq & Hren & _).
    destruct (Hren "model_name" (PyStr "m")
                (or_intror (conj eq_refl eq_refl)) eq_refl) as (-> & _).
    exists (derived g). rewrite Hq. vm_compute. reflexivity.
  - destruct (renames_for_bedrock_and_vertex_only "openai" kwargs g
                (derived g) "langchain_openai.ChatOpenAI" eq_refl)
      as (args & Hq & _ & _ & Hsame).
    rewrite (Hsame ltac:(discriminate) ltac:(discriminate)) in Hq.
    exists (derived g). exact Hq.
Defined.

(** C10. For ["bedrock"] with target ["model_id"], and for ["vertex"]
    with target ["model_name"]: when [kwargs] holds both ["model"], with
    value [m], and the target, with value [old], the class is called with
    the target set to [m] and without ["model"]; the other keys keep their
    values; and the result is the same whatever value the target had, and
    the same as when the target was not given: [old] is lost. *)
Theorem rename_overwrites_given_target
    (p target : string) (kwargs : gmap string pyobj) (g g' : globals)
    (c : string) (m old : pyobj) :
  (p = "bedrock" /\ target = "model_id") \/
  (p = "vertex" /\ target = "model_name") ->
  get_chat_model_class p g = (g', Return (PyClass c)) ->
  kwargs !! "model" = Some m ->
  kwargs !! target = Some old ->
  exists args,
    get_chat_model p kwargs g =
      (g', Return {| instance_class := c; init_kwargs := args |}) /\
    args !! target = Some m /\
    args !! "model" = None /\
    (forall k, k <> "model" -> k <> target -> args !! k = kwargs !! k) /\
    (forall old', get_chat_model p (<[target := old']> kwargs) g =
                  get_chat_model p kwargs g) /\
    get_chat_model p (delete target kwargs) g = get_chat_model p kwargs g.
Proof.
  intros Hp Hq Hm Hold.
  assert (Hne : target <> "model") by (by destruct Hp as [[_ ->]|[_ ->]]).
  assert (Hren : forall kw, kw !! "model" = Some m ->
            renamed p kw = <[target := m]> (delete "model" kw)).
  { intros kw Hkw. destruct Hp as [[-> ->]|[-> ->]]; unfold renamed; simpl;
      by rewrite Hkw. }
  exists (<[target := m]> (delete "model" kwargs)).
  pose proof (fun kw => get_chat_model_class_found p kw g g' c Hq) as Hfound.
  rewrite !Hfound, (Hren kwargs Hm).
  split_and!.
  - done.
  - apply lookup_insert_eq.
  - rewrite lookup_insert_ne by done. apply lookup_delete_eq.
  - intros k Hk Ht. rewrite lookup_insert_ne by done.
    by rewrite lookup_delete_ne.
  - intros old'. rewrite Hfound, Hren by (by rewrite lookup_insert_ne).
    do 3 f_equal. apply map_eq. intros k.
    destruct (decide (k = target)) as [->|Hk].
    + by rewrite !lookup_insert_eq.
    + rewrite !lookup_insert_ne by done.
      destruct (decide (k = "model")) as [->|Hk'].
      * by rewrite !lookup_delete_eq.
      * rewrite !lookup_delete_ne by done. by rewrite lookup_insert_ne.
  - rewrite Hren by (by rewrite lookup_delete_ne).
    do 3 f_equal. apply map_eq. intros k.
    destruct (decide (k = target)) as [->|Hk].
    + by rewrite !lookup_insert_eq.
    + rewrite !lookup_insert_ne by done.
      destruct (decide (k = "model")) as [->|Hk'].
      * by rewrite !lookup_delete_eq.
      * by rewrite !lookup_delete_ne.
Qed.

(** ["bedrock"] called with both [model] and [model_id]: the instance is
    built with the value of [model] under [model_id]. *)
Lemma rename_overwrites_given_target_witness :
  let g := imported (fun _ => true) in
  let kwargs : gmap string pyobj :=
    <["model" := PyStr "m"]> (<["model_id" := PyStr "mine"]> ∅) in
  exists g' args,
    get_chat_model "bedrock" kwargs g =
    (g', Return {| instance_class := "langchain_aws.ChatBedrock";
                   init_kwargs := args |}) /\
    args !! "model_id" = Some (PyStr "m") /\
    args !! "model" = None.
Proof.
  intros g kwargs.
  destruct (rename_overwrites_given_target "bedrock" "model_id" kwargs g
              (derived g) "langchain_aws.ChatBedrock" (PyStr "m")
              (PyStr "mine") (or_introl (conj eq_refl eq_refl))
              eq_refl eq_refl eq_refl)
    as (args & Hq & Ht & Hm & _).
  exists (derived g), args. by split_and!.
Defined.

(** ** The lookup of a name that is not registered, in the factory *)

Lemma info_of_follows_contract importable name module class_name :
  follows_contract (info_of importable name module class_name) = true.
Proof.
  unfold follows_contract, info_of, import_from.
  by destruct (importable module).
Qed.

Lemma info_of_yields_name importable k name module class_name :
  k <> name ->
  yields_name k (info_of importable name module class_name) = false.
Proof.
  intros Hne%String.eqb_neq. unfold yields_name, info_of, import_from.
  by destruct (importable module).
Qed.

Lemma imported_funcs importable :
  _provider_info_funcs_list (imported importable) =
    [openai importable; azure_openai importable; bedrock importable;
     vertex importable; gemini importable; anthropic importable;
     ollama importable].
Proof. reflexivity. Qed.

(** C1, on the code: whichever SDKs can be imported, and whatever the
    keyword arguments, [get_chat_model("nonexistent")] on the imported
    package raises [KeyError("nonexistent")], the failure of the table
    lookup, and not [ValueError("Unsupported provider: nonexistent")]. *)
Theorem get_chat_model_nonexistent_raises_KeyError
    (importable : string -> bool) (kwargs : gmap string pyobj) :
  snd (get_chat_model "nonexistent" kwargs (imported importable)) =
    Raise (KeyError "nonexistent") /\
  snd (get_chat_model "nonexistent" kwargs (imported importable)) <>
    Raise (ValueError "Unsupported provider: nonexistent").
Proof.
  assert (H : snd (get_chat_model "nonexistent" kwargs (imported importable)) =
              Raise (KeyError "nonexistent")).
  { destruct (_get_dict_unyielded (imported importable) "nonexistent")
      as (g' & d & Hq & Hnone).
    - reflexivity.
    - rewrite imported_funcs.
      unfold openai, azure_openai, bedrock, vertex, gemini, anthropic, ollama.
      cbn [forallb]. by rewrite !info_of_follows_contract.
    - rewrite imported_funcs.
      unfold openai, azure_openai, bedrock, vertex, gemini, anthropic, ollama.
      cbn [existsb]. by rewrite !info_of_yields_name.
    - destruct (query_return _ _ _ "nonexistent" Hq) as (_ & _ & Hc).
      rewrite Hnone in Hc.
      by rewrite (get_chat_model_raise _ kwargs _ _ _ Hc). }
  split; [exact H |]. rewrite H. discriminate.
Qed.

(** ** Invariants of the reachable globals *)

Lemma registered_snoc funcs f :
  registered (funcs ++ [f]) = fst (register f (registered funcs)).
Proof. unfold registered. by rewrite fold_left_app. Qed.

Lemma registered_reachable funcs : reachable (registered funcs).
Proof.
  induction funcs as [|f funcs IH] using rev_ind.
  - apply reachable_module_body.
  - rewrite registered_snoc. by apply reachable_register.
Qed.

Lemma imported_registered importable :
  imported importable =
    registered [openai importable; azure_openai importable;
                bedrock importable; vertex importable; gemini importable;
                anthropic importable; ollama importable].
Proof. reflexivity. Qed.

Lemma imported_reachable importable : reachable (imported importable).
Proof. rewrite imported_registered. apply registered_reachable. Qed.

Lemma reachable_NoDup_keys g :
  reachable g -> List.NoDup (PyDict.keys (_provider_dict g)).
Proof.
  induction 1 as [|g f _ IH|g _ IH]; [constructor | done |].
  destruct (PyDict.truthy (_provider_dict g)) eqn:E.
  - by rewrite _get_dict_cached.
  - apply truthy_false in E. rewrite _get_dict_derive by done; simpl.
    apply derive_NoDup. constructor.
Qed.

(** X1. In every state reached from the module body by registrations and
    queries, each entry of the cached table is the name and the class that
    some registered function returns: the table never holds a name no
    registered function returns. *)
Theorem reachable_table_entries_are_returned
    (g : globals) (k : string) (v : pyobj) :
  reachable g ->
  PyDict.get k (_provider_dict g) = Some v ->
  exists f, List.In f (_provider_info_funcs_list g) /\
            f tt = Return {| provider_name := k; model_type := v |}.
Proof.
  intros Hr Hg.
  apply reachable_table_from_funcs in Hr.
  apply get_In, (proj1 (table_from_funcs_spec g) Hr) in Hg.
  apply existsb_exists in Hg as (f & Hin & Hy%yields_spec). eauto.
Qed.

(** After a query on the imported package with every SDK present, the
    entry of ["bedrock"] is what a registered function returns. *)
Lemma reachable_table_entries_are_returned_witness :
  exists f,
    List.In f (_provider_info_funcs_list
                 (fst (_get_dict (imported (fun _ => true))))) /\
    f tt = Return {| provider_name := "bedrock";
                     model_type := PyClass "langchain_aws.ChatBedrock" |}.
Proof.
  apply (reachable_table_entries_are_returned
           (fst (_get_dict (imported (fun _ => true)))) "bedrock"
           (PyClass "langchain_aws.ChatBedrock")).
  - apply reachable_query, imported_reachable.
  - reflexivity.
Defined.

(** X2. In every reachable state, the list a query of [get_list] returns
    holds no name twice, also when several registered functions return the
    same name. *)
Theorem get_list_has_no_duplicates (g g' : globals) (names : list string) :
  reachable g ->
  get_list g = (g', Return names) ->
  List.NoDup names.
Proof.
  intros Hr Hq.
  pose proof (reachable_NoDup_keys _ (reachable_query _ Hr)) as Hnd.
  unfold get_list, bind in Hq.
  destruct (_get_dict g) as [g1 [d|e]] eqn:Hd; [| done].
  injection Hq as <- <-. simpl in Hnd.
  destruct (PyDict.truthy (_provider_dict g)) eqn:E.
  - rewrite _get_dict_cached in Hd by done. by injection Hd as <- <-.
  - apply truthy_false in E. rewrite _get_dict_derive in Hd by done.
    destruct (uncaught _); [done |]. by injection Hd as <- <-.
Qed.

Lemma get_list_has_no_duplicates_witness :
  List.NoDup ["dup"; "other"].
Proof.
  apply (get_list_has_no_duplicates
           (registered [returning "dup" "First"; returning "other" "O";
                        returning "dup" "Second"])
           (derived (registered [returning "dup" "First";
                                 returning "other" "O";
                                 returning "dup" "Second"]))).
  - apply registered_reachable.
  - reflexivity.
Defined.

(** ** The order of the names *)

Lemma keys_derive_distinct funcs d :
  forallb follows_contract funcs = true ->
  List.NoDup (PyDict.keys d ++ names_returned funcs) ->
  PyDict.keys (derive funcs d) = (PyDict.keys d ++ names_returned funcs)%list.
Proof.
  revert d. induction funcs as [|f rest IH]; intros d; simpl.
  - intros _ _. by rewrite app_nil_r.
  - rewrite andb_true_iff. unfold follows_contract at 1. intros [Hf Hr] Hnd.
    destruct (f tt) as [[k v]|e]; simpl in *.
    + assert (Hk : PyDict.contains k d = false).
      { destruct (PyDict.contains k d) eqn:E; [| done].
        apply contains_keys in E.
        apply NoDup_ListNoDup, NoDup_app in Hnd as (_ & Hdis & _).
        exfalso. apply (Hdis k); [by apply list_elem_of_In |]. left. }
      rewrite IH; [| done |]; rewrite keys_setitem, Hk.
      * by rewrite <- app_assoc.
      * by rewrite <- app_assoc.
    + rewrite Hf. by apply IH.
Qed.

(** X3. When the table is empty, every registered function returns or
    fails with an [ImportError], and the names returned are pairwise
    distinct, [get_list] returns those names in the order of
    registration. *)
Theorem get_list_in_registration_order (g : globals) :
  _provider_dict g = [] ->
  forallb follows_contract (_provider_info_funcs_list g) = true ->
  List.NoDup (names_returned (_provider_info_funcs_list g)) ->
  exists g',
    get_list g = (g', Return (names_returned (_provider_info_funcs_list g))).
Proof.
  intros Hd Hc Hnd. exists (derived g).
  destruct (query_return _ _ _ "" (_get_dict_contract g Hd Hc)) as (-> & _).
  simpl. by rewrite keys_derive_distinct.
Qed.

Lemma get_list_in_registration_order_witness :
  exists g',
    get_list (registered [returning "test2" "B"; failing_import "missing";
                          returning "test1" "A"]) =
    (g', Return ["test2"; "test1"]).
Proof.
  apply (get_list_in_registration_order
           (registered [returning "test2" "B"; failing_import "missing";
                        returning "test1" "A"]) eq_refl eq_refl).
  simpl. repeat (constructor; [simpl; intuition discriminate |]). constructor.
Defined.

(** ** The imported package *)

(** X4. Whichever SDK modules can be imported, [get_provider_list] on the
    freshly imported package returns, in source order, exactly the
    provider names of [__init__.py] whose module can be imported; it never
    raises. *)
Theorem get_provider_list_of_imported (importable : string -> bool) :
  snd (get_provider_list (imported importable)) =
    Return (map fst (List.filter (fun nm => importable (snd nm)) sdk_modules)).
Proof.
  unfold get_provider_list, get_list, bind.
  rewrite _get_dict_contract.
  - simpl. unfold sdk_modules; simpl.
    unfold openai, azure_openai, bedrock, vertex, gemini, anthropic, ollama,
      info_of, import_from.
    destruct (importable "langchain_openai"),
      (importable "langchain_aws"),
      (importable "langchain_google_vertexai"),
      (importable "langchain_google_genai"),
      (importable "langchain_anthropic"),
      (importable "langchain_ollama"); reflexivity.
  - reflexivity.
  - rewrite imported_funcs.
    unfold openai, azure_openai, bedrock, vertex, gemini, anthropic, ollama.
    cbn [forallb]. by rewrite !info_of_follows_contract.
Qed.

(** ** Registration after the table is cached *)

(** X5. Once the cached table is not empty, a function registered later
    is never called and its name does not become available: the queries
    keep answering from the table as it was. *)
Theorem late_registration_is_ignored
    (g : globals) (f : info_func) (name : string) :
  PyDict.truthy (_provider_dict g) = true ->
  let g1 := fst (register f g) in
  get_list g1 = (g1, Return (PyDict.keys (_provider_dict g))) /\
  is_supported name g1 =
    (g1, Return (PyDict.contains name (_provider_dict g))) /\
  get_chat_model_class name g1 =
    (g1, match PyDict.get name (_provider_dict g) with
         | Some c => Return c
         | None => Raise (KeyError name)
         end) /\
  invoked g1 = invoked g.
Proof.
  intros Ht g1.
  assert (Hq : _get_dict g1 = (g1, Return (_provider_dict g)))
    by (by apply (_get_dict_cached g1)).
  destruct (query_return _ _ _ name Hq) as (? & ? & ?). by split_and!.
Qed.

(** A function returning ["late"], registered after a query has cached
    the table of ["early"]: ["late"] is not supported. *)
Lemma late_registration_is_ignored_witness :
  let g := fst (get_list (registered [returning "early" "E"])) in
  let g1 := fst (register (returning "late" "L") g) in
  get_list g1 = (g1, Return ["early"]) /\
  is_supported "late" g1 = (g1, Return false) /\
  get_chat_model_class "late" g1 = (g1, Raise (KeyError "late")).
Proof.
  intros g g1.
  destruct (late_registration_is_ignored g (returning "late" "L") "late"
              eq_refl) as (Hl & Hs & Hc & _).
  by split_and!.
Defined.

(** X6. When the table is empty and every registered function follows
    the contract, registering a function that returns the name [k] with
    the class [v] makes [k] supported and makes the lookup of [k] return
    [v], whatever the functions registered before return for [k]. *)
Theorem register_then_lookup
    (g : globals) (f : info_func) (k : string) (v : pyobj) :
  _provider_dict g = [] ->
  forallb follows_contract (_provider_info_funcs_list g) = true ->
  f tt = Return {| provider_name := k; model_type := v |} ->
  exists g',
    is_supported k (fst (register f g)) = (g', Return true) /\
    get_chat_model_class k (fst (register f g)) = (g', Return v).
Proof.
  intros Hd Hc Hf.
  assert (Hc1 : forallb follows_contract
                  (_provider_info_funcs_list (fst (register f g))) = true).
  { simpl. rewrite forallb_app, Hc. simpl.
    unfold follows_contract. by rewrite Hf. }
  pose proof (_get_dict_contract (fst (register f g)) Hd Hc1) as Hq.
  assert (Hget : PyDict.get k (_provider_dict (derived (fst (register f g))))
                 = Some v).
  { simpl. apply derive_get_last; [by apply contract_uncaught | done | done]. }
  exists (derived (fst (register f g))).
  destruct (query_return _ _ _ k Hq) as (_ & -> & ->).
  unfold PyDict.contains. by rewrite Hget.
Qed.

Lemma register_then_lookup_witness :
  exists g',
    is_supported "test_provider"
      (fst (register (returning "test_provider" "New")
              (registered [failing_import "missing";
                           returning "test_provider" "Old"]))) =
    (g', Return true) /\
    get_chat_model_class "test_provider"
      (fst (register (returning "test_provider" "New")
              (registered [failing_import "missing";
                           returning "test_provider" "Old"]))) =
    (g', Return (PyClass "New")).
Proof.
  exact (register_then_lookup
           (registered [failing_import "missing";
                        returning "test_provider" "Old"])
           (returning "test_provider" "New") "test_provider" (PyClass "New")
           eq_refl eq_refl eq_refl).
Defined.

(** ** The queries against one another *)


Lemma get_list_inv g g' names :
  get_list g = (g', Return names) ->
  exists d, _get_dict g = (g', Return d) /\ names = PyDict.keys d.
Proof.
  unfold get_list, bind. destruct (_get_dict g) as [g1 [d|e]]; [| done].
  intros [= <- <-]. eauto.
Qed.


(** X7. The three queries agree: when [get_list] returns [names], then,
    on the same globals, [is_supported(p)] returns [True] exactly for the
    names [p] of the list, [get_chat_model_class(p)] returns a value for
    them and raises [KeyError(p)] for every other name, and all three
    leave the same globals. *)
Theorem queries_agree (g g' : globals) (names : list string) (p : string) :
  get_list g = (g', Return names) ->
  (exists b, is_supported p g = (g', Return b) /\
             (b = true <-> List.In p names)) /\
  (List.In p names -> exists v, get_chat_model_class p g = (g', Return v)) /\
  (~ List.In p names -> get_chat_model_class p g = (g', Raise (KeyError p))).
Proof.
  intros (d & Hq & ->)%get_list_inv.
  destruct (query_return _ _ _ p Hq) as (_ & Hs & Hc).
  split_and!.
  - exists (PyDict.contains p d). split; [done | apply contains_keys].
  - intros Hin%contains_keys. rewrite Hc. unfold PyDict.contains in Hin.
    destruct (PyDict.get p d); [eauto | done].
  - intros Hnin. rewrite Hc.
    destruct (PyDict.get p d) eqn:Hg; [| done].
    exfalso. apply Hnin, contains_keys. unfold PyDict.contains.
    by rewrite Hg.
Qed.

Lemma queries_agree_witness :
  let g := registered [failing_import "missing";
                       returning "supported_provider" "S"] in
  (exists b, is_supported "unsupported_provider" g = (derived g, Return b) /\
             (b = true <-> List.In "unsupported_provider"
                                   ["supported_provider"])) /\
  (exists v, get_chat_model_class "supported_provider" g =
             (derived g, Return v)).
Proof.
  intros g. split.
  - exact (proj1 (queries_agree g (derived g) ["supported_provider"]
                    "unsupported_provider" eq_refl)).
  - apply (proj1 (proj2 (queries_agree g (derived g) ["supported_provider"]
                           "supported_provider" eq_refl))).
    by left.
Defined.





(** ** The factory after a check of [is_supported] *)





(** ** The script *)








